(** * poke-card-keeper-hub: the booster-pack page and the card-details page

    A shallow embedding of [src/pages/BoosterGame.tsx] and
    [src/pages/CardDetails.tsx].  React state cells become fields of a
    record, event handlers become actions of a small state/exception/trace
    monad, and every answer of the hosted backend is an input of the model
    (a [Backend] record), so that each theorem holds for whatever the
    backend answers. *)

From Stdlib Require Import String List ZArith Bool Lia Sorted Permutation
  OrderedTypeEx.
Import ListNotations.
Local Open Scope string_scope.
Local Open Scope list_scope.

(** ** Data model ([src/integrations/supabase/types.ts]) *)

(** [Database.public.Tables.cards.Row]. *)
Module Card.
Record t := mk {
  artist : option string;
  hp : option Z;
  id : string;
  image_url : string;
  name : string;
  number : string;
  rarity : string;
  set_id : string;
  supertype : option string;
  type : string
}.
End Card.

(** [Database.public.Tables.game_collections.Row]. *)
Module GameCollectionRow.
Record t := mk {
  card_id : string;
  collected_at : string;
  id : string;
  user_id : string
}.
End GameCollectionRow.

(** An element of what [get_user_game_collection_safe] returns:
    [Array<{ card_id: string }>]. *)
Module RpcRow.
Record t := mk { card_id : string }.
End RpcRow.

(** Modelled from the spec: the type [CardWithCollectionStatus] is declared
    in [@/types/database], which is not part of the sources at hand; the
    spec describes it as "a Card plus a boolean owned flag", and the code
    builds its values with [{ ...card, owned: b }]. *)
Module CardWithCollectionStatus.
Record t := mk {
  artist : option string;
  hp : option Z;
  id : string;
  image_url : string;
  name : string;
  number : string;
  rarity : string;
  set_id : string;
  supertype : option string;
  type : string;
  owned : bool
}.

(** [{ ...card, owned: b }] for a row of [cards]. *)
Definition spread (card : Card.t) (b : bool) : t :=
  {| artist := Card.artist card; hp := Card.hp card; id := Card.id card;
     image_url := Card.image_url card; name := Card.name card;
     number := Card.number card; rarity := Card.rarity card;
     set_id := Card.set_id card; supertype := Card.supertype card;
     type := Card.type card; owned := b |}.

(** [{ ...card, owned: true }] for an element of [boosterCards]. *)
Definition set_owned (card : t) (b : bool) : t :=
  {| artist := artist card; hp := hp card; id := id card;
     image_url := image_url card; name := name card;
     number := number card; rarity := rarity card;
     set_id := set_id card; supertype := supertype card;
     type := type card; owned := b |}.

(** The [Card] fields of an annotated card. *)
Definition card_of (c : t) : Card.t :=
  {| Card.artist := artist c; Card.hp := hp c; Card.id := id c;
     Card.image_url := image_url c; Card.name := name c;
     Card.number := number c; Card.rarity := rarity c;
     Card.set_id := set_id c; Card.supertype := supertype c;
     Card.type := type c |}.
End CardWithCollectionStatus.

(** ** Backend answers and observable effects *)

(** An error object; as an object it is always truthy. *)
Inductive Error := mkError (message : string).

(** What awaiting a backend call yields: the promise resolves to an object
    [{ data, error }] (either part may be [null]), or it rejects. *)
Inductive Response (A : Type) :=
| Resolved (data : option A) (error : option Error)
| Rejected (reason : Error).
Arguments Resolved {A} data error.
Arguments Rejected {A} reason.

(** A call failed: it resolved with an error object, or it rejected. *)
Definition failed {A : Type} (r : Response A) : bool :=
  match r with
  | Resolved _ (Some _) => true
  | Resolved _ None => false
  | Rejected _ => true
  end.

(** The backend calls the two pages issue. *)
Inductive BackendCall :=
| SelectCards
    (* supabase.from('cards').select('*').order('id').limit(5) *)
| GetUserGameCollection (userId : string)
| RpcGetUserGameCollectionSafe (user_id_param : string)
| GetGameCollectionCount (userId : string)
| RpcGetGameCollectionCountSafe (user_id_param : string)
| AddCardToGameCollection (userId cardId : string)
| RpcAddCardToGameCollectionSafe (user_id_param card_id_param : string).

Definition is_read (c : BackendCall) : bool :=
  match c with
  | SelectCards | GetUserGameCollection _ | RpcGetUserGameCollectionSafe _
  | GetGameCollectionCount _ | RpcGetGameCollectionCountSafe _ => true
  | AddCardToGameCollection _ _ | RpcAddCardToGameCollectionSafe _ _ => false
  end.

Definition is_write (c : BackendCall) : bool := negb (is_read c).

Inductive ToastKind := ToastError | ToastSuccess | ToastInfo.

(** What a handler does besides updating component state, in order. *)
Inductive Event :=
| Call (c : BackendCall)
| ConsoleError (label : string) (e : option Error)
| Toast (kind : ToastKind) (message : string).

Definition is_call (e : Event) : bool :=
  match e with Call _ => true | _ => false end.

Definition is_backend_read (e : Event) : bool :=
  match e with Call c => is_read c | _ => false end.

Definition is_backend_write (e : Event) : bool :=
  match e with Call c => is_write c | _ => false end.

Definition is_toast (e : Event) : bool :=
  match e with Toast _ _ => true | _ => false end.

Definition is_toast_of (k : ToastKind) (e : Event) : bool :=
  match e, k with
  | Toast ToastError _, ToastError => true
  | Toast ToastSuccess _, ToastSuccess => true
  | Toast ToastInfo _, ToastInfo => true
  | _, _ => false
  end.

(** The answers of the backend, one per call the pages can make. *)
Record Backend := {
  select_cards : Response (list Card.t);
  getUserGameCollection : string -> Response (list GameCollectionRow.t);
  rpc_get_user_game_collection_safe : string -> Response (list RpcRow.t);
  getGameCollectionCount : string -> Response Z;
  rpc_get_game_collection_count_safe : string -> Response Z;
  addCardToGameCollection : string -> string -> Response unit;
  rpc_add_card_to_game_collection_safe : string -> string -> Response unit
}.

(** ** Handlers as actions

    A handler runs on the component state [S] and appends to the trace of
    events.  It completes normally or by a thrown exception; state updates
    and events made before a throw persist, as in JavaScript. *)
Section Action.
Context {S : Type}.

Inductive Completion (A : Type) :=
| Normal (a : A)
| Thrown (e : Error).

Definition Act (A : Type) : Type :=
  S * list Event -> Completion A * (S * list Event).

Definition ret {A} (a : A) : Act A := fun w => (Normal A a, w).

Definition bind {A B} (m : Act A) (k : A -> Act B) : Act B :=
  fun w =>
    match m w with
    | (Normal _ a, w') => k a w'
    | (Thrown _ e, w') => (Thrown B e, w')
    end.

Definition throw {A} (e : Error) : Act A := fun w => (Thrown A e, w).

(** [try { body } catch (e) { handler e }] *)
Definition try_catch {A} (body : Act A) (handler : Error -> Act A) : Act A :=
  fun w =>
    match body w with
    | (Normal _ a, w') => (Normal A a, w')
    | (Thrown _ e, w') => handler e w'
    end.

(** [try { body } finally { fin }] *)
Definition try_finally {A} (body : Act A) (fin : Act unit) : Act A :=
  fun w =>
    match body w with
    | (c, w') =>
        match fin w' with
        | (Normal _ _, w'') => (c, w'')
        | (Thrown _ e, w'') => (Thrown A e, w'')
        end
    end.

Definition gets {A} (f : S -> A) : Act A := fun w => (Normal A (f (fst w)), w).

Definition modify (f : S -> S) : Act unit :=
  fun w => (Normal unit tt, (f (fst w), snd w)).

Definition emit (e : Event) : Act unit :=
  fun w => (Normal unit tt, (fst w, snd w ++ [e])).

(** [await call]: the call is issued, then its answer is destructured
    into [(data, error)], or the rejection is thrown. *)
Definition await {A} (c : BackendCall) (r : Response A)
  : Act (option A * option Error) :=
  fun w =>
    match r with
    | Resolved d e => (Normal _ (d, e), (fst w, snd w ++ [Call c]))
    | Rejected x => (Thrown _ x, (fst w, snd w ++ [Call c]))
    end.

Definition console_error (label : string) (e : option Error) : Act unit :=
  emit (ConsoleError label e).

Definition toast (k : ToastKind) (msg : string) : Act unit :=
  emit (Toast k msg).

(** Run a handler from a state with an empty trace. *)
Definition run {A} (m : Act A) (s : S) : Completion A * (S * list Event) :=
  m (s, []).

Definition exec {A} (m : Act A) (s : S) : S := fst (snd (run m s)).
Definition events {A} (m : Act A) (s : S) : list Event := snd (snd (run m s)).
Definition completion {A} (m : Act A) (s : S) : Completion A := fst (run m s).
End Action.

Arguments Normal {A} a.
Arguments Thrown {A} e.
Arguments Act S A : clear implicits.

Declare Scope act_scope.
Delimit Scope act_scope with act.
Notation "x <- m ;; k" := (bind m (fun x => k))
  (at level 100, m at next level, right associativity) : act_scope.
Notation "' p <- m ;; k" := (bind m (fun x => match x with p => k end))
  (at level 100, p pattern, m at next level, right associativity) : act_scope.
Notation "m ;; k" := (bind m (fun _ => k))
  (at level 100, right associativity) : act_scope.

(** [xs.includes(x)] on an array of strings. *)
Definition includes (xs : list string) (x : string) : bool :=
  existsb (String.eqb x) xs.

(** ** The query behind a booster pack *)

(** A query as the chain of builder calls writes it. *)
Module Query.

Record t := mk {
  table : string;
  columns : string;
  order_by : option string;
  row_limit : option nat
}.





End Query.


(** ** The hosted database

    Modelled from the spec: the database that evaluates the query is a
    hosted service, not part of the sources at hand.  The spec (section 6)
    lists the table [cards(id, set_id, name, number, rarity, type, hp,
    artist, image_url, supertype)] and calls the selection of a pack "a
    plain ordered database query" (section 1).  An answer to a query on
    [cards] holds rows of the table; with an order column the rows are
    ascending in that column and no row left out sorts before a row of the
    answer; with a limit the rows are as many as the limit and the table
    allow.  How the database compares text, its collation, is a parameter
    of the model. *)
Module Hosted.



Section Collation.
(** [collate a b]: the text [a] sorts before or with the text [b]. *)
Variable collate : string -> string -> bool.






End Collation.

End Hosted.

(** ** Arithmetic of the count

    The count cell is a JavaScript number, a double.  The model keeps the
    integer it holds, and [prev + 1] is the exact sum rounded to the nearest
    double: a significand of 53 bits, ties to even.  Up to [2 ^ 53] in
    absolute value the sum is exact. *)
Definition round_to_double (m : Z) : Z :=
  let a := Z.abs m in
  if (a <=? 2 ^ 53)%Z then m
  else
    let e := (Z.log2 a - 52)%Z in
    let q := (a / 2 ^ e)%Z in
    let r := (a mod 2 ^ e)%Z in
    let half := (2 ^ (e - 1))%Z in
    let q' := if (r <? half)%Z then q
              else if (half <? r)%Z then (q + 1)%Z
              else if Z.even q then q else (q + 1)%Z in
    (Z.sgn m * (q' * 2 ^ e))%Z.

(** [prev + 1] *)
Definition js_add_one (prev : Z) : Z := round_to_double (prev + 1).
Arguments js_add_one : simpl never.

(** The session object of the authentication provider, of which the pages
    read [session.user.id] only. *)
Module Session.
Record t := mk { user_id : string }.
End Session.

(** ** [src/pages/BoosterGame.tsx] *)
Module BoosterGame.

(** The component's [useState] cells. *)
Record State := mkState {
  isLoggedIn : bool;
  showAuthModal : bool;
  username : string;
  boosterCards : list CardWithCollectionStatus.t;
  isOpened : bool;
  isLoading : bool;
  gameCollectionCount : Z
}.

(** The state of a freshly mounted component. *)
Definition initial : State :=
  {| isLoggedIn := false; showAuthModal := false; username := "";
     boosterCards := []; isOpened := false; isLoading := false;
     gameCollectionCount := 0 |}.

Definition with_isLoggedIn (b : bool) (s : State) : State :=
  mkState b (showAuthModal s) (username s) (boosterCards s) (isOpened s)
          (isLoading s) (gameCollectionCount s).
Definition with_showAuthModal (b : bool) (s : State) : State :=
  mkState (isLoggedIn s) b (username s) (boosterCards s) (isOpened s)
          (isLoading s) (gameCollectionCount s).
Definition with_username (u : string) (s : State) : State :=
  mkState (isLoggedIn s) (showAuthModal s) u (boosterCards s) (isOpened s)
          (isLoading s) (gameCollectionCount s).
Definition with_boosterCards (f : list CardWithCollectionStatus.t ->
                                  list CardWithCollectionStatus.t)
                             (s : State) : State :=
  mkState (isLoggedIn s) (showAuthModal s) (username s) (f (boosterCards s))
          (isOpened s) (isLoading s) (gameCollectionCount s).
Definition with_isOpened (b : bool) (s : State) : State :=
  mkState (isLoggedIn s) (showAuthModal s) (username s) (boosterCards s) b
          (isLoading s) (gameCollectionCount s).
Definition with_isLoading (b : bool) (s : State) : State :=
  mkState (isLoggedIn s) (showAuthModal s) (username s) (boosterCards s)
          (isOpened s) b (gameCollectionCount s).
Definition with_gameCollectionCount (f : Z -> Z) (s : State) : State :=
  mkState (isLoggedIn s) (showAuthModal s) (username s) (boosterCards s)
          (isOpened s) (isLoading s) (f (gameCollectionCount s)).

(** The setters returned by [useState]. *)
Definition setIsLoggedIn (b : bool) : Act State unit := modify (with_isLoggedIn b).
Definition setShowAuthModal (b : bool) : Act State unit := modify (with_showAuthModal b).
Definition setUsername (u : string) : Act State unit := modify (with_username u).
Definition setBoosterCards (f : list CardWithCollectionStatus.t ->
                                list CardWithCollectionStatus.t)
  : Act State unit := modify (with_boosterCards f).
Definition setIsOpened (b : bool) : Act State unit := modify (with_isOpened b).
Definition setIsLoading (b : bool) : Act State unit := modify (with_isLoading b).
Definition setGameCollectionCount (f : Z -> Z) : Act State unit :=
  modify (with_gameCollectionCount f).

Local Open Scope act_scope.

(** [count || 0] *)
Definition or_zero (count : option Z) : Z :=
  match count with
  | Some n => n
  | None => 0%Z
  end.

(** Lines 54-87. *)
Definition fetchGameCollectionCount (be : Backend) (userId : string)
  : Act State unit :=
  try_catch
    ('(count, error) <-
        await (GetGameCollectionCount userId) (getGameCollectionCount be userId) ;;
     match error with
     | Some e =>
         console_error "Error fetching game collection count:" (Some e)   (* return *)
     | None =>
         setGameCollectionCount (fun _ => or_zero count)
     end)
    (fun error =>
       console_error "Error in fetchGameCollectionCount:" (Some error) ;;
       try_catch
         ('(data, error) <-
             await (RpcGetGameCollectionCountSafe userId)
                   (rpc_get_game_collection_count_safe be userId) ;;
          match error with
          | Some e =>
              console_error "RPC error:" (Some e)   (* return *)
          | None =>
              match data with
              | Some n => setGameCollectionCount (fun _ => n)
              | None => ret tt
              end
          end)
         (fun fallbackError => console_error "Fallback error:" (Some fallbackError))).

(** Lines 96-100. *)
Definition handleLogout : Act State unit :=
  setIsLoggedIn false ;;
  setUsername "" ;;
  setGameCollectionCount (fun _ => 0%Z).

(** [collectionError || !gameCollection] *)
Definition collection_unavailable (gameCollection : option (list GameCollectionRow.t))
                                  (collectionError : option Error) : bool :=
  match collectionError, gameCollection with
  | Some _, _ => true
  | None, None => true
  | None, Some _ => false
  end.

(** Lines 102-173.  [isLoggedIn] and [username] are the values captured
    by the closure of the render in which the handler was created. *)
Definition openBoosterPack (be : Backend) : Act State unit :=
  isLoggedIn <- gets isLoggedIn ;;
  username <- gets username ;;
  if negb isLoggedIn then
    setShowAuthModal true   (* return *)
  else
    setIsLoading true ;;
    try_finally
      (try_catch
         ('(randomCards, error) <- await SelectCards (select_cards be) ;;
          match error with
          | Some e => throw e
          | None =>
          match randomCards with
          | None => throw (mkError "No cards returned")
          | Some randomCards =>
          '(gameCollection, collectionError) <-
             await (GetUserGameCollection username)
                   (getUserGameCollection be username) ;;
          if collection_unavailable gameCollection collectionError then
            console_error "Error fetching game collection:" collectionError ;;
            '(rpcData, rpcError) <-
               await (RpcGetUserGameCollectionSafe username)
                     (rpc_get_user_game_collection_safe be username) ;;
            match rpcError with
            | Some e =>
                console_error "RPC error:" (Some e) ;;
                let cardsWithStatus :=
                  map (fun card => CardWithCollectionStatus.spread card false)
                      randomCards in
                setBoosterCards (fun _ => cardsWithStatus) ;;
                setIsOpened true   (* return *)
            | None =>
                let ownedCardIds :=
                  match rpcData with
                  | Some rows => map (fun item => RpcRow.card_id item) rows
                  | None => []
                  end in
                let cardsWithStatus :=
                  map (fun card =>
                         CardWithCollectionStatus.spread card
                           (includes ownedCardIds (Card.id card)))
                      randomCards in
                setBoosterCards (fun _ => cardsWithStatus) ;;
                setIsOpened true
            end
          else
            let ownedCardIds :=
              match gameCollection with
              | Some rows => map (fun item => GameCollectionRow.card_id item) rows
              | None => []
              end in
            let cardsWithStatus :=
              map (fun card =>
                     CardWithCollectionStatus.spread card
                       (includes ownedCardIds (Card.id card)))
                  randomCards in
            setBoosterCards (fun _ => cardsWithStatus) ;;
            setIsOpened true
          end
          end)
         (fun error =>
            console_error "Error opening booster pack:" (Some error) ;;
            toast ToastError "Failed to open booster pack"))
      (setIsLoading false).

(** [card => card.id === cardId ? { ...card, owned: true } : card] *)
Definition mark_owned (cardId : string) (card : CardWithCollectionStatus.t)
  : CardWithCollectionStatus.t :=
  if String.eqb (CardWithCollectionStatus.id card) cardId
  then CardWithCollectionStatus.set_owned card true
  else card.

(** Lines 175-214. *)
Definition addToGameCollection (be : Backend) (cardId : string)
  : Act State unit :=
  isLoggedIn <- gets isLoggedIn ;;
  username <- gets username ;;
  if negb isLoggedIn then
    setShowAuthModal true   (* return *)
  else
    try_catch
      ('(_, error) <-
          await (AddCardToGameCollection username cardId)
                (addCardToGameCollection be username cardId) ;;
       rpcFailed <-
         match error with
         | Some _ =>
             '(_, rpcError) <-
                await (RpcAddCardToGameCollectionSafe username cardId)
                      (rpc_add_card_to_game_collection_safe be username cardId) ;;
             match rpcError with
             | Some e =>
                 console_error "RPC error:" (Some e) ;;
                 toast ToastError "Failed to add card to collection" ;;
                 ret true   (* return *)
             | None => ret false
             end
         | None => ret false
         end ;;
       if rpcFailed : bool then ret tt
       else
         setBoosterCards (fun prevCards => map (mark_owned cardId) prevCards) ;;
         setGameCollectionCount (fun prev => js_add_one prev) ;;
         toast ToastSuccess "Card added to your game collection!")
      (fun error =>
         console_error "Error adding card to collection:" (Some error) ;;
         toast ToastError "Failed to add card to collection").

(** Lines 216-219. *)
Definition resetBooster : Act State unit :=
  setBoosterCards (fun _ => []) ;;
  setIsOpened false.

(** Lines 24-31.  [answer] is what awaiting [supabase.auth.getSession()]
    yields, of which only [data.session] is read; the call to
    [fetchGameCollectionCount] is not awaited and is run here in place. *)
Definition checkUser (be : Backend) (answer : Response Session.t)
  : Act State unit :=
  match answer with
  | Rejected reason => throw reason
  | Resolved session _ =>
      match session with
      | Some session =>
          setIsLoggedIn true ;;
          setUsername (Session.user_id session) ;;
          fetchGameCollectionCount be (Session.user_id session)
      | None => ret tt
      end
  end.

(** Lines 36-46: the callback registered with [onAuthStateChange]. *)
Definition onAuthStateChange (be : Backend) (session : option Session.t)
  : Act State unit :=
  match session with
  | Some session =>
      setIsLoggedIn true ;;
      setUsername (Session.user_id session) ;;
      fetchGameCollectionCount be (Session.user_id session)
  | None =>
      setIsLoggedIn false ;;
      setUsername "" ;;
      setGameCollectionCount (fun _ => 0%Z)
  end.

(** Lines 89-94.  The call to [fetchGameCollectionCount] is not awaited
    and is run here in place. *)
Definition handleLogin (be : Backend) (username : string) : Act State unit :=
  setIsLoggedIn true ;;
  setUsername username ;;
  setShowAuthModal false ;;
  fetchGameCollectionCount be username.

(** Lines 221-270: what the component returns.  Below the heading there
    is either the button that opens a pack (with its [disabled] flag, the
    text "Opening pack..." and the hint "Please login to open boosters")
    or the [BoosterPack] with the cards. *)
Inductive Main :=
| OpenButton (disabled opening loginHint : bool)
| BoosterPack (cards : list CardWithCollectionStatus.t).

Record View := mkView {
  layout_isLoggedIn : bool;
  collectionLine : option Z;
  main : Main;
  authModal_isOpen : bool
}.

Definition render (s : State) : View :=
  {| layout_isLoggedIn := isLoggedIn s;
     collectionLine :=
       if isLoggedIn s then Some (gameCollectionCount s) else None;
     main :=
       if negb (isOpened s)
       then OpenButton (isLoading s) (isLoading s) (negb (isLoggedIn s))
       else BoosterPack (boosterCards s);
     authModal_isOpen := showAuthModal s |}.

(** *** Readings of the backend's answers used in the statements *)

(** The insert of a row for [(userId, cardId)] was confirmed by the
    backend: the primary insert resolved without an error, or it resolved
    with one and the remote procedure then resolved without. *)
Definition add_confirmed (be : Backend) (userId cardId : string) : bool :=
  match addCardToGameCollection be userId cardId with
  | Resolved _ None => true
  | Resolved _ (Some _) =>
      negb (failed (rpc_add_card_to_game_collection_safe be userId cardId))
  | Rejected _ => false
  end.

(** The ownership lookup was answered: neither the primary query nor,
    where it is consulted, the remote procedure rejected. *)
Definition lookup_answered (be : Backend) (userId : string) : bool :=
  match getUserGameCollection be userId with
  | Resolved gameCollection collectionError =>
      if collection_unavailable gameCollection collectionError then
        match rpc_get_user_game_collection_safe be userId with
        | Resolved _ _ => true
        | Rejected _ => false
        end
      else true
  | Rejected _ => false
  end.

End BoosterGame.

(** ** The table of game-collection rows

    Modelled from the spec: the table [game_collections] and the writes
    behind [addCardToGameCollection] and [add_card_to_game_collection_safe]
    are not part of the sources at hand.  The spec (sections 3 and 4.2) says
    that a (user, card) pair appears at most once in the table and that a
    write "inserts a new ownership row if absent", de-duplication being the
    backing store's responsibility.  A write takes effect when the backend
    resolved it without an error. *)
Module GameCollections.

(** The rows, each a pair (user id, card id). *)
Definition t : Type := list (string * string).

Definition has (userId cardId : string) (rows : t) : bool :=
  existsb (fun row => String.eqb (fst row) userId && String.eqb (snd row) cardId)
          rows.

Definition insert_if_absent (userId cardId : string) (rows : t) : t :=
  if has userId cardId rows then rows else rows ++ [(userId, cardId)].

(** The table after one event of a handler's trace, [be] telling how the
    backend answered the call. *)
Definition write (be : Backend) (rows : t) (e : Event) : t :=
  match e with
  | Call (AddCardToGameCollection userId cardId) =>
      if failed (addCardToGameCollection be userId cardId) then rows
      else insert_if_absent userId cardId rows
  | Call (RpcAddCardToGameCollectionSafe userId cardId) =>
      if failed (rpc_add_card_to_game_collection_safe be userId cardId) then rows
      else insert_if_absent userId cardId rows
  | _ => rows
  end.

(** The table after the trace of a handler. *)
Definition after (be : Backend) (trace : list Event) (rows : t) : t :=
  fold_left (write be) trace rows.

End GameCollections.

(** ** [src/pages/CardDetails.tsx] *)
Module CardDetails.

(** The component's [useState] cells. *)
Record State := mkState {
  isLoggedIn : bool;
  showAuthModal : bool;
  username : string;
  isOwned : bool
}.

Definition with_isLoggedIn (b : bool) (s : State) : State :=
  mkState b (showAuthModal s) (username s) (isOwned s).
Definition with_showAuthModal (b : bool) (s : State) : State :=
  mkState (isLoggedIn s) b (username s) (isOwned s).
Definition with_username (u : string) (s : State) : State :=
  mkState (isLoggedIn s) (showAuthModal s) u (isOwned s).
Definition with_isOwned (b : bool) (s : State) : State :=
  mkState (isLoggedIn s) (showAuthModal s) (username s) b.

Definition setIsLoggedIn (b : bool) : Act State unit := modify (with_isLoggedIn b).
Definition setShowAuthModal (b : bool) : Act State unit := modify (with_showAuthModal b).
Definition setUsername (u : string) : Act State unit := modify (with_username u).
Definition setIsOwned (b : bool) : Act State unit := modify (with_isOwned b).

(** [!p] for a route parameter of type [string | undefined]. *)
Definition missing (p : option string) : bool :=
  match p with
  | None => true
  | Some "" => true
  | Some _ => false
  end.

Section Page.
(** The catalog of [@/data/mockData], which is not part of the sources
    at hand: the record types of a card and of a set, the two fields of
    a card the handlers read, and the two lookups. *)
Variables CardRecord SetRecord : Type.
Variable owned : CardRecord -> bool.
Variable name : CardRecord -> string.
Variable getCardDetails : string -> string -> option CardRecord.
Variable getSetDetails : string -> option SetRecord.

(** What the component returns: one of the two bare [<div>]s, or the
    details page of a card in a set, drawn from the state cells. *)
Inductive View :=
| Div (text : string)
| Page (cardDetails : CardRecord) (setDetails : SetRecord) (s : State).

(** The cells on the first render: [useState(false)], [useState(false)],
    [useState('')], [useState(cardDetails.owned)]. *)
Definition initial (cardDetails : CardRecord) : State :=
  {| isLoggedIn := false; showAuthModal := false; username := "";
     isOwned := owned cardDetails |}.

(** Lines 20-38 and 85-192: one call of the component function.  It
    returns the element, and whether the call reached
    [useState(cardDetails.owned)] at line 38, the hook that comes after the
    two early returns of lines 27-36 (the hooks of lines 21-25 are called
    on every path).  [cells] gives the state cells once the card is known:
    [initial] on the first render, the current state on later ones. *)
Definition CardDetails (setId cardId : option string)
                       (cells : CardRecord -> State) : View * bool :=
  if missing setId || missing cardId then
    (Div "Set ID and Card ID are required", false)
  else
    match setId, cardId with
    | Some setId, Some cardId =>
        let cardDetails := getCardDetails setId cardId in
        let setDetails := getSetDetails setId in
        match cardDetails, setDetails with
        | Some cardDetails, Some setDetails =>
            (Page cardDetails setDetails (cells cardDetails), true)
        | _, _ => (Div "Card not found", false)
        end
    | _, _ => (Div "Set ID and Card ID are required", false)
    end.

(** A render of a component instance under React's rule of hooks: a render
    must call the hooks the render before called.  [previous] tells whether
    the render before reached the hook of line 38, and is [None] on the
    first render.  When the component function calls fewer hooks than the
    render before, or more, React throws instead of showing the element. *)
Definition render (previous : option bool) (setId cardId : option string)
                  (cells : CardRecord -> State) : Completion View :=
  let (element, reached) := CardDetails setId cardId cells in
  match previous with
  | None => Normal element
  | Some before =>
      if Bool.eqb before reached then Normal element
      else if before then
        Thrown (mkError
          "Rendered fewer hooks than expected. This may be caused by an accidental early return statement.")
      else
        Thrown (mkError "Rendered more hooks than during the previous render.")
  end.

(** The first render of an instance. *)
Definition mount (setId cardId : option string) : Completion View :=
  render None setId cardId initial.

(** A later render of an instance whose cells hold [s]. *)
Definition rerender (before : bool) (s : State) (setId cardId : option string)
  : Completion View :=
  render (Some before) setId cardId (fun _ => s).

Local Open Scope act_scope.

(** Lines 40-44. *)
Definition handleLogin (username : string) : Act State unit :=
  setIsLoggedIn true ;;
  setUsername username ;;
  setShowAuthModal false.

(** Lines 46-49. *)
Definition handleLogout : Act State unit :=
  setIsLoggedIn false ;;
  setUsername "".

(** Lines 51-59.  [isOwned] is the value captured by the closure of the
    render in which the handler was created. *)
Definition handleToggleOwned (cardDetails : CardRecord) : Act State unit :=
  isOwned <- gets isOwned ;;
  setIsOwned (negb isOwned) ;;
  if negb isOwned then
    toast ToastSuccess
      ("Added " ++ name cardDetails ++ " to your collection!")%string
  else
    toast ToastInfo
      ("Removed " ++ name cardDetails ++ " from your collection")%string.
End Page.

Arguments Div {CardRecord SetRecord} text.
Arguments Page {CardRecord SetRecord} cardDetails setDetails s.
Arguments CardDetails {CardRecord SetRecord} getCardDetails getSetDetails
  setId cardId cells.
Arguments render {CardRecord SetRecord} getCardDetails getSetDetails
  previous setId cardId cells.
Arguments mount {CardRecord SetRecord} owned getCardDetails getSetDetails
  setId cardId.
Arguments rerender {CardRecord SetRecord} getCardDetails getSetDetails
  before s setId cardId.
Arguments initial {CardRecord} owned cardDetails.
Arguments handleToggleOwned {CardRecord} name cardDetails.

End CardDetails.

(** ** The scenario of the specification

    User [u1] owns the cards [c1] and [c3] among the cards [c1], [c2], [c3]
    of the catalog. *)
Module Scenario.

Definition card (id : string) : Card.t :=
  {| Card.artist := None; Card.hp := Some 60%Z; Card.id := id;
     Card.image_url := "https://img/" ++ id; Card.name := id;
     Card.number := "4"; Card.rarity := "Rare"; Card.set_id := "base1";
     Card.supertype := None; Card.type := "Fire" |}.

Definition c1 : Card.t := card "c1".
Definition c2 : Card.t := card "c2".
Definition c3 : Card.t := card "c3".


Definition owns (userId cardId : string) : GameCollectionRow.t :=
  {| GameCollectionRow.card_id := cardId;
     GameCollectionRow.collected_at := "2025-01-01";
     GameCollectionRow.id := userId ++ "/" ++ cardId;
     GameCollectionRow.user_id := userId |}.

Definition down : Error := mkError "service unavailable".
Definition duplicate : Error :=
  mkError "duplicate key value violates unique constraint".

(** Every call is answered without an error. *)
Definition healthy : Backend :=
  {| select_cards := Resolved (Some [c1; c2; c3]) None;
     getUserGameCollection := fun u =>
       Resolved (Some [owns u "c1"; owns u "c3"]) None;
     rpc_get_user_game_collection_safe := fun _ =>
       Resolved (Some [RpcRow.mk "c3"; RpcRow.mk "c1"]) None;
     getGameCollectionCount := fun _ => Resolved (Some 2%Z) None;
     rpc_get_game_collection_count_safe := fun _ => Resolved (Some 2%Z) None;
     addCardToGameCollection := fun _ _ => Resolved None None;
     rpc_add_card_to_game_collection_safe := fun _ _ => Resolved None None |}.

(** The direct table accesses answer with an error, the remote procedures
    answer. *)
Definition primary_down : Backend :=
  {| select_cards := select_cards healthy;
     getUserGameCollection := fun _ => Resolved None (Some down);
     rpc_get_user_game_collection_safe := rpc_get_user_game_collection_safe healthy;
     getGameCollectionCount := fun _ => Rejected down;
     rpc_get_game_collection_count_safe := rpc_get_game_collection_count_safe healthy;
     addCardToGameCollection := fun _ _ => Resolved None (Some duplicate);
     rpc_add_card_to_game_collection_safe := fun _ _ => Resolved None None |}.

(** The catalog answers; every access to the game collection answers with
    an error. *)
Definition collection_down : Backend :=
  {| select_cards := select_cards healthy;
     getUserGameCollection := fun _ => Resolved None (Some down);
     rpc_get_user_game_collection_safe := fun _ => Resolved None (Some down);
     getGameCollectionCount := fun _ => Rejected down;
     rpc_get_game_collection_count_safe := fun _ => Resolved None (Some down);
     addCardToGameCollection := fun _ _ => Resolved None (Some down);
     rpc_add_card_to_game_collection_safe := fun _ _ => Resolved None (Some down) |}.

(** The catalog answers; the primary collection query answers with an
    error and the remote procedure rejects. *)
Definition rpc_rejecting : Backend :=
  {| select_cards := select_cards healthy;
     getUserGameCollection := fun _ => Resolved None (Some down);
     rpc_get_user_game_collection_safe := fun _ => Rejected down;
     getGameCollectionCount := getGameCollectionCount healthy;
     rpc_get_game_collection_count_safe := rpc_get_game_collection_count_safe healthy;
     addCardToGameCollection := addCardToGameCollection healthy;
     rpc_add_card_to_game_collection_safe :=
       rpc_add_card_to_game_collection_safe healthy |}.



(** The rows of [game_collections]: [u1] owns [c1] and [c3]. *)
Definition rows : GameCollections.t := [("u1", "c1"); ("u1", "c3")].

(** The page after [u1] logged in and the count was fetched. *)
Definition logged_in : BoosterGame.State :=
  {| BoosterGame.isLoggedIn := true; BoosterGame.showAuthModal := false;
     BoosterGame.username := "u1"; BoosterGame.boosterCards := [];
     BoosterGame.isOpened := false; BoosterGame.isLoading := false;
     BoosterGame.gameCollectionCount := 2 |}.

(** The page after [u1] then opened a pack. *)
Definition pack_opened : BoosterGame.State :=
  exec (BoosterGame.openBoosterPack healthy) logged_in.

(** A catalog holding the set [base1] with the single card [base1-1];
    a card record is its name and its owned flag, a set record its name. *)
Definition getCardDetails (setId cardId : string) : option (string * bool) :=
  if String.eqb setId "base1" && String.eqb cardId "base1-1"
  then Some ("Alakazam", false)
  else None.

Definition getSetDetails (setId : string) : option string :=
  if String.eqb setId "base1" then Some "Base" else None.

End Scenario.

(** ** Facts about the answers of the hosted database *)





Section AnswerFacts.
Variable collate : string -> string -> bool.
Hypothesis collate_total : forall a b, collate a b = true \/ collate b a = true.
Hypothesis collate_trans :
  forall a b c, collate a b = true -> collate b c = true -> collate a c = true.
Variable key : Card.t -> string.










Hypothesis collate_antisym :
  forall a b, collate a b = true -> collate b a = true -> a = b.



End AnswerFacts.



(** ** Facts about the arithmetic of the count *)

(** Between [- 2 ^ 53] and [2 ^ 53] adding one is exact. *)
Lemma js_add_one_exact (prev : Z) :
  (- 2 ^ 53 <= prev < 2 ^ 53)%Z -> js_add_one prev = (prev + 1)%Z.
Proof.
  intros Hsafe. unfold js_add_one, round_to_double. cbv zeta.
  change (2 ^ 53)%Z with 9007199254740992%Z in *.
  destruct (Z.leb_spec (Z.abs (prev + 1)) 9007199254740992); [reflexivity | lia].
Qed.

(** ** Properties of the booster-pack page *)
Module BoosterGameSpec.
Import BoosterGame.

(** Unfold a handler run down to the answers of the backend. *)
Ltac step_handler :=
  unfold exec, events, completion, run, openBoosterPack, addToGameCollection,
    fetchGameCollectionCount, setShowAuthModal, setIsLoading, setBoosterCards,
    setIsOpened, setGameCollectionCount, console_error, toast,
    try_finally, try_catch, bind, gets, modify, emit, await, throw, ret;
  cbn [fst snd].

Lemma card_of_spread (card : Card.t) (b : bool) :
  CardWithCollectionStatus.card_of (CardWithCollectionStatus.spread card b) = card.
Proof. destruct card. reflexivity. Qed.

Lemma owned_spread (card : Card.t) (b : bool) :
  CardWithCollectionStatus.owned (CardWithCollectionStatus.spread card b) = b.
Proof. reflexivity. Qed.

Lemma map_card_of_spread (f : Card.t -> bool) (cards : list Card.t) :
  map CardWithCollectionStatus.card_of
      (map (fun card => CardWithCollectionStatus.spread card (f card)) cards)
  = cards.
Proof.
  induction cards as [|c cards IH]; simpl.
  - reflexivity.
  - rewrite card_of_spread, IH. reflexivity.
Qed.

Lemma includes_In (xs : list string) (x : string) :
  includes xs x = true <-> In x xs.
Proof.
  unfold includes. rewrite existsb_exists. split.
  - intros [y [Hy Heq]]. apply String.eqb_eq in Heq. subst. exact Hy.
  - intros Hx. exists x. split; [exact Hx | apply String.eqb_refl].
Qed.

Lemma includes_ext (xs ys : list string) (x : string) :
  (In x xs <-> In x ys) -> includes xs x = includes ys x.
Proof.
  intros H. apply eq_true_iff_eq. rewrite !includes_In. exact H.
Qed.

Lemma spread_includes_Forall2 (ids : list string) (cards : list Card.t) :
  Forall2 (fun card shown =>
             CardWithCollectionStatus.card_of shown = card
             /\ (CardWithCollectionStatus.owned shown = true
                 <-> In (Card.id card) ids))
          cards
          (map (fun card => CardWithCollectionStatus.spread card
                              (includes ids (Card.id card))) cards).
Proof.
  induction cards as [|card cards IH]; simpl; constructor.
  - split; [apply card_of_spread | apply includes_In].
  - exact IH.
Qed.

(** The state after a pack was opened on the primary path. *)
Lemma exec_open_primary (be : Backend) (s : State) (randomCards : list Card.t)
      (rows : list GameCollectionRow.t) :
  isLoggedIn s = true ->
  select_cards be = Resolved (Some randomCards) None ->
  getUserGameCollection be (username s) = Resolved (Some rows) None ->
  exec (openBoosterPack be) s
  = with_isLoading false (with_isOpened true (with_boosterCards (fun _ =>
      map (fun card => CardWithCollectionStatus.spread card
             (includes (map GameCollectionRow.card_id rows) (Card.id card)))
          randomCards) (with_isLoading true s))).
Proof.
  intros Hin Hsel Hcol. step_handler.
  rewrite Hin. cbn. rewrite Hsel. cbn. rewrite Hcol. cbn. reflexivity.
Qed.

(** The state after a pack was opened on the fallback path. *)
Lemma exec_open_fallback (be : Backend) (s : State) (randomCards : list Card.t)
      (gameCollection : option (list GameCollectionRow.t))
      (collectionError : option Error) (rpcRows : list RpcRow.t) :
  isLoggedIn s = true ->
  select_cards be = Resolved (Some randomCards) None ->
  getUserGameCollection be (username s) = Resolved gameCollection collectionError ->
  collection_unavailable gameCollection collectionError = true ->
  rpc_get_user_game_collection_safe be (username s) = Resolved (Some rpcRows) None ->
  exec (openBoosterPack be) s
  = with_isLoading false (with_isOpened true (with_boosterCards (fun _ =>
      map (fun card => CardWithCollectionStatus.spread card
             (includes (map RpcRow.card_id rpcRows) (Card.id card)))
          randomCards) (with_isLoading true s))).
Proof.
  intros Hin Hsel Hcol Hun Hrpc. step_handler.
  rewrite Hin. cbn. rewrite Hsel. cbn. rewrite Hcol. cbn. rewrite Hun. cbn.
  rewrite Hrpc. cbn. reflexivity.
Qed.


Lemma exec_add_confirmed (be : Backend) (s : State) (cardId : string) :
  isLoggedIn s = true ->
  add_confirmed be (username s) cardId = true ->
  exec (addToGameCollection be cardId) s
  = with_gameCollectionCount (fun prev => js_add_one prev)
      (with_boosterCards (map (mark_owned cardId)) s).
Proof.
  intros Hin Hok. unfold add_confirmed in Hok. step_handler.
  rewrite Hin. cbn.
  destruct (addCardToGameCollection be (username s) cardId) as [d [e|]|];
    [| reflexivity | discriminate]. cbn.
  destruct (rpc_add_card_to_game_collection_safe be (username s) cardId)
    as [rd [re|]|]; try discriminate. reflexivity.
Qed.

Lemma run_add_unconfirmed (be : Backend) (s : State) (cardId : string) :
  isLoggedIn s = true ->
  add_confirmed be (username s) cardId = false ->
  exec (addToGameCollection be cardId) s = s
  /\ existsb (is_toast_of ToastError) (events (addToGameCollection be cardId) s) = true
  /\ existsb (is_toast_of ToastSuccess) (events (addToGameCollection be cardId) s) = false
  /\ completion (addToGameCollection be cardId) s = Normal tt.
Proof.
  intros Hin Hko. unfold add_confirmed in Hko. step_handler.
  rewrite Hin. cbn.
  destruct (addCardToGameCollection be (username s) cardId) as [d [e|]|];
    [| discriminate | destruct s; cbn; auto ]. cbn.
  destruct (rpc_add_card_to_game_collection_safe be (username s) cardId)
    as [rd [re|]|]; try discriminate; destruct s; cbn; auto.
Qed.












(** C2, as amended.  When the primary ownership query fails by resolving
    with an error or without data and the remote procedure fails by
    resolving with an error, every card of the pack is shown as not owned
    and the pack is presented: the cards are the ones selected, the pack is
    open, loading is over, and no failure is notified. *)
Theorem open_fail_open
    (be : Backend) (s : State) (randomCards : list Card.t)
    (gameCollection : option (list GameCollectionRow.t))
    (collectionError : option Error)
    (rpcData : option (list RpcRow.t)) (rpcError : Error) :
  isLoggedIn s = true ->
  select_cards be = Resolved (Some randomCards) None ->
  getUserGameCollection be (username s) = Resolved gameCollection collectionError ->
  collection_unavailable gameCollection collectionError = true ->
  rpc_get_user_game_collection_safe be (username s) = Resolved rpcData (Some rpcError) ->
  let s' := exec (openBoosterPack be) s in
  Forall (fun card => CardWithCollectionStatus.owned card = false) (boosterCards s')
  /\ map CardWithCollectionStatus.card_of (boosterCards s') = randomCards
  /\ isOpened s' = true
  /\ isLoading s' = false
  /\ completion (openBoosterPack be) s = Normal tt
  /\ existsb is_toast (events (openBoosterPack be) s) = false.
Proof.
  intros Hin Hsel Hcol Hun Hrpc. step_handler.
  rewrite Hin. cbn. rewrite Hsel. cbn. rewrite Hcol. cbn. rewrite Hun. cbn.
  rewrite Hrpc. cbn. repeat split.
  - apply Forall_forall. intros c Hc. apply in_map_iff in Hc.
    destruct Hc as [c0 [<- _]]. reflexivity.
  - apply map_card_of_spread.
Qed.

Lemma open_fail_open_witness :
  let s' := exec (openBoosterPack Scenario.collection_down) Scenario.logged_in in
  Forall (fun card => CardWithCollectionStatus.owned card = false) (boosterCards s')
  /\ map CardWithCollectionStatus.card_of (boosterCards s')
     = [Scenario.c1; Scenario.c2; Scenario.c3]
  /\ isOpened s' = true
  /\ isLoading s' = false
  /\ completion (openBoosterPack Scenario.collection_down) Scenario.logged_in
     = Normal tt
  /\ existsb is_toast
       (events (openBoosterPack Scenario.collection_down) Scenario.logged_in)
     = false.
Proof.
  apply (open_fail_open Scenario.collection_down Scenario.logged_in
           [Scenario.c1; Scenario.c2; Scenario.c3]
           None (Some Scenario.down) None Scenario.down); reflexivity.
Defined.

(** C2, as stated, fails: the primary query answers with an error and the
    remote procedure rejects, so both have failed; the three selected cards
    are not shown, no pack is presented and the failure is notified. *)
Lemma open_both_failed_no_pack :
  let be := Scenario.rpc_rejecting in
  let s' := exec (openBoosterPack be) Scenario.logged_in in
  select_cards be = Resolved (Some [Scenario.c1; Scenario.c2; Scenario.c3]) None
  /\ failed (getUserGameCollection be (username Scenario.logged_in)) = true
  /\ failed (rpc_get_user_game_collection_safe be (username Scenario.logged_in))
     = true
  /\ boosterCards s' = []
  /\ isOpened s' = false
  /\ existsb (is_toast_of ToastError) (events (openBoosterPack be) Scenario.logged_in)
     = true.
Proof.
  cbv zeta. repeat split.
Qed.

(** When the ownership query rejects instead of resolving, the [catch]
    clause runs: the failure is notified, and the cards and the opened
    flag are left as they were. *)
Remark open_lookup_rejected
    (be : Backend) (s : State) (randomCards : list Card.t) (reason : Error) :
  isLoggedIn s = true ->
  select_cards be = Resolved (Some randomCards) None ->
  getUserGameCollection be (username s) = Rejected reason ->
  exec (openBoosterPack be) s = with_isLoading false (with_isLoading true s)
  /\ events (openBoosterPack be) s
     = [Call SelectCards; Call (GetUserGameCollection (username s));
        ConsoleError "Error opening booster pack:" (Some reason);
        Toast ToastError "Failed to open booster pack"].
Proof.
  intros Hin Hsel Hcol. step_handler.
  rewrite Hin. cbn. rewrite Hsel. cbn. rewrite Hcol. cbn. split; reflexivity.
Qed.

(** C3.  On the same selected cards, a pack opened through the remote
    procedure (the primary query having failed) shows each selected card
    with owned telling whether its id is among the card ids the remote
    procedure returned, as a pack opened through the primary query does
    with the card ids of the rows it returned; when the two answers name
    the same card ids the two openings leave the page in the same state,
    with the same annotated cards. *)
Theorem open_fallback_agrees_with_primary
    (primary fallback : Backend) (s : State) (randomCards : list Card.t)
    (rows : list GameCollectionRow.t)
    (gameCollection : option (list GameCollectionRow.t))
    (collectionError : option Error) (rpcRows : list RpcRow.t) :
  isLoggedIn s = true ->
  select_cards primary = Resolved (Some randomCards) None ->
  select_cards fallback = Resolved (Some randomCards) None ->
  getUserGameCollection primary (username s) = Resolved (Some rows) None ->
  getUserGameCollection fallback (username s)
    = Resolved gameCollection collectionError ->
  collection_unavailable gameCollection collectionError = true ->
  rpc_get_user_game_collection_safe fallback (username s)
    = Resolved (Some rpcRows) None ->
  (forall cardId, In cardId (map RpcRow.card_id rpcRows)
                  <-> In cardId (map GameCollectionRow.card_id rows)) ->
  let by_fallback := exec (openBoosterPack fallback) s in
  let by_primary := exec (openBoosterPack primary) s in
  by_fallback = by_primary
  /\ isOpened by_fallback = true
  /\ boosterCards by_fallback
     = map (fun card =>
              CardWithCollectionStatus.spread card
                (includes (map RpcRow.card_id rpcRows) (Card.id card)))
           randomCards
  /\ boosterCards by_primary
     = map (fun card =>
              CardWithCollectionStatus.spread card
                (includes (map GameCollectionRow.card_id rows) (Card.id card)))
           randomCards
  /\ Forall2 (fun card shown =>
                CardWithCollectionStatus.card_of shown = card
                /\ (CardWithCollectionStatus.owned shown = true
                    <-> In (Card.id card) (map RpcRow.card_id rpcRows)))
             randomCards (boosterCards by_fallback)
  /\ Forall2 (fun card shown =>
                CardWithCollectionStatus.card_of shown = card
                /\ (CardWithCollectionStatus.owned shown = true
                    <-> In (Card.id card) (map GameCollectionRow.card_id rows)))
             randomCards (boosterCards by_primary).
Proof.
  intros Hin Hsel1 Hsel2 Hcol1 Hcol2 Hun Hrpc Hsame by_fallback by_primary.
  subst by_fallback by_primary.
  rewrite (exec_open_primary primary s randomCards rows Hin Hsel1 Hcol1).
  rewrite (exec_open_fallback fallback s randomCards gameCollection
             collectionError rpcRows Hin Hsel2 Hcol2 Hun Hrpc).
  split; [|split; [reflexivity|split; [reflexivity|split; [reflexivity|split]]]].
  - unfold with_isLoading, with_isOpened, with_boosterCards. cbn. f_equal.
    apply map_ext. intros card. f_equal. apply includes_ext. apply Hsame.
  - apply spread_includes_Forall2.
  - apply spread_includes_Forall2.
Qed.

Lemma open_fallback_agrees_with_primary_witness :
  exec (openBoosterPack Scenario.primary_down) Scenario.logged_in
  = exec (openBoosterPack Scenario.healthy) Scenario.logged_in.
Proof.
  apply (open_fallback_agrees_with_primary Scenario.healthy Scenario.primary_down
           Scenario.logged_in [Scenario.c1; Scenario.c2; Scenario.c3]
           [Scenario.owns "u1" "c1"; Scenario.owns "u1" "c3"]
           None (Some Scenario.down) [RpcRow.mk "c3"; RpcRow.mk "c1"]);
    try reflexivity.
  intros cardId. simpl. tauto.
Defined.

(** C4.  On the primary path the page shows the selected cards themselves,
    as many and in the same order, each with its [Card] fields as they
    were, and a card is shown as owned exactly when its id is among the
    card ids of the user's collection rows. *)
Theorem open_annotates_ownership
    (be : Backend) (s : State) (randomCards : list Card.t)
    (rows : list GameCollectionRow.t) :
  isLoggedIn s = true ->
  select_cards be = Resolved (Some randomCards) None ->
  getUserGameCollection be (username s) = Resolved (Some rows) None ->
  let out := boosterCards (exec (openBoosterPack be) s) in
  out = map (fun card =>
               CardWithCollectionStatus.spread card
                 (includes (map GameCollectionRow.card_id rows) (Card.id card)))
            randomCards
  /\ length out = length randomCards
  /\ map CardWithCollectionStatus.card_of out = randomCards
  /\ map CardWithCollectionStatus.owned out
     = map (fun card => includes (map GameCollectionRow.card_id rows) (Card.id card))
           randomCards
  /\ Forall2 (fun card shown =>
                CardWithCollectionStatus.card_of shown = card
                /\ (CardWithCollectionStatus.owned shown = true
                    <-> In (Card.id card) (map GameCollectionRow.card_id rows)))
             randomCards out.
Proof.
  intros Hin Hsel Hcol out. subst out.
  rewrite (exec_open_primary be s randomCards rows Hin Hsel Hcol). cbn.
  split; [reflexivity|].
  split; [apply length_map|]. split; [apply map_card_of_spread|].
  split; [rewrite map_map; reflexivity|].
  apply spread_includes_Forall2.
Qed.

Lemma open_annotates_ownership_witness :
  boosterCards (exec (openBoosterPack Scenario.healthy) Scenario.logged_in)
  = [CardWithCollectionStatus.spread Scenario.c1 true;
     CardWithCollectionStatus.spread Scenario.c2 false;
     CardWithCollectionStatus.spread Scenario.c3 true].
Proof.
  exact (proj1 (open_annotates_ownership Scenario.healthy Scenario.logged_in
                  [Scenario.c1; Scenario.c2; Scenario.c3]
                  [Scenario.owns "u1" "c1"; Scenario.owns "u1" "c3"]
                  eq_refl eq_refl eq_refl)).
Defined.

(** C5.  When the primary insert fails and the remote procedure fails
    too, the failure is notified, no success is, and the page state is
    what it was; at most the insert and one remote call were issued.
    More generally the state changes only when the add was confirmed. *)
Theorem add_failure_leaves_state (be : Backend) (s : State) (cardId : string) :
  isLoggedIn s = true ->
  (failed (addCardToGameCollection be (username s) cardId) = true ->
   failed (rpc_add_card_to_game_collection_safe be (username s) cardId) = true ->
   exec (addToGameCollection be cardId) s = s
   /\ existsb (is_toast_of ToastError) (events (addToGameCollection be cardId) s) = true
   /\ existsb (is_toast_of ToastSuccess) (events (addToGameCollection be cardId) s) = false
   /\ completion (addToGameCollection be cardId) s = Normal tt)
  /\ (exec (addToGameCollection be cardId) s <> s ->
      add_confirmed be (username s) cardId = true)
  /\ (length (filter is_call (events (addToGameCollection be cardId) s)) <= 2)%nat.
Proof.
  intros Hin. split; [|split].
  - intros Hp Hr. apply run_add_unconfirmed; [exact Hin|].
    unfold add_confirmed.
    destruct (addCardToGameCollection be (username s) cardId) as [d [e|]|];
      try discriminate; try reflexivity.
    rewrite Hr. reflexivity.
  - intros Hne. destruct (add_confirmed be (username s) cardId) eqn:E;
      [reflexivity|].
    exfalso. apply Hne. apply run_add_unconfirmed; assumption.
  - step_handler. rewrite Hin. cbn.
    destruct (addCardToGameCollection be (username s) cardId) as [d [e|]|]; cbn;
      try lia.
    destruct (rpc_add_card_to_game_collection_safe be (username s) cardId)
      as [rd [re|]|]; cbn; lia.
Qed.

Lemma add_failure_leaves_state_witness :
  exec (addToGameCollection Scenario.collection_down "c2") Scenario.pack_opened
  = Scenario.pack_opened
  /\ existsb (is_toast_of ToastError)
       (events (addToGameCollection Scenario.collection_down "c2")
               Scenario.pack_opened) = true.
Proof.
  destruct (add_failure_leaves_state Scenario.collection_down
              Scenario.pack_opened "c2" eq_refl) as [Hfail _].
  destruct (Hfail eq_refl eq_refl) as (Hs & Ht & _).
  split; [exact Hs | exact Ht].
Defined.

(** C6.  Logged out, opening a pack only raises the authentication
    prompt: the handler completes at once, no other cell changes and
    nothing is asked of the backend (the trace is empty). *)
Theorem open_logged_out (be : Backend) (s : State) :
  isLoggedIn s = false ->
  run (openBoosterPack be) s = (Normal tt, (with_showAuthModal true s, []))
  /\ existsb is_backend_read (events (openBoosterPack be) s) = false.
Proof.
  intros Hout. step_handler. rewrite Hout. split; reflexivity.
Qed.

Lemma open_logged_out_witness :
  run (openBoosterPack Scenario.healthy) initial
  = (Normal tt, (with_showAuthModal true initial, []))
  /\ existsb is_backend_read (events (openBoosterPack Scenario.healthy) initial)
     = false.
Proof.
  apply (open_logged_out Scenario.healthy initial). reflexivity.
Defined.



(** C9.  When the count query fails and the remote procedure fails too,
    the displayed count, like the rest of the page state, is what it was,
    and nothing is notified to the user. *)
Theorem count_failure_keeps_count (be : Backend) (userId : string) (s : State) :
  failed (getGameCollectionCount be userId) = true ->
  failed (rpc_get_game_collection_count_safe be userId) = true ->
  exec (fetchGameCollectionCount be userId) s = s
  /\ gameCollectionCount (exec (fetchGameCollectionCount be userId) s)
     = gameCollectionCount s
  /\ existsb is_toast (events (fetchGameCollectionCount be userId) s) = false
  /\ completion (fetchGameCollectionCount be userId) s = Normal tt.
Proof.
  intros Hp Hr. step_handler.
  destruct (getGameCollectionCount be userId) as [d [e|]|]; try discriminate; cbn.
  - destruct s; auto.
  - destruct (rpc_get_game_collection_count_safe be userId) as [rd [re|]|];
      try discriminate; cbn; destruct s; auto.
Qed.

Lemma count_failure_keeps_count_witness :
  exec (fetchGameCollectionCount Scenario.collection_down "u1") Scenario.logged_in
  = Scenario.logged_in
  /\ gameCollectionCount
       (exec (fetchGameCollectionCount Scenario.collection_down "u1")
             Scenario.logged_in) = 2%Z.
Proof.
  destruct (count_failure_keeps_count Scenario.collection_down "u1"
              Scenario.logged_in eq_refl eq_refl) as (Hs & Hc & _).
  split; [exact Hs | exact Hc].
Defined.
End BoosterGameSpec.

(** ** Properties of the card-details page *)
Module CardDetailsSpec.
Import CardDetails.

Section Catalog.
Context {CardRecord SetRecord : Type}.
Variable owned : CardRecord -> bool.
Variable name : CardRecord -> string.
Variable getCardDetails : string -> string -> option CardRecord.
Variable getSetDetails : string -> option SetRecord.

(** C8.  On the first render of the page, and on a later render of a page
    that showed a message, a missing route parameter gives the bare
    message "Set ID and Card ID are required" and a card or a set the
    catalog lacks gives the bare message "Card not found".  On a later
    render of a page that showed the details the same inputs make React
    throw: the early return comes before the hook of line 38, so the
    render calls fewer hooks than the one before. *)
Theorem missing_card_render
    (setId cardId : option string) (s : State) :
  missing setId = true \/ missing cardId = true
  \/ (exists sid cid,
        setId = Some sid /\ cardId = Some cid
        /\ (getCardDetails sid cid = None \/ getSetDetails sid = None)) ->
  let message :=
    if missing setId || missing cardId
    then "Set ID and Card ID are required"
    else "Card not found" in
  mount owned getCardDetails getSetDetails setId cardId = Normal (Div message)
  /\ rerender getCardDetails getSetDetails false s setId cardId
     = Normal (Div message)
  /\ rerender getCardDetails getSetDetails true s setId cardId
     = Thrown (mkError
         "Rendered fewer hooks than expected. This may be caused by an accidental early return statement.").
Proof.
  intros Hmiss. unfold mount, rerender, render, CardDetails.
  destruct (missing setId || missing cardId) eqn:Em; [repeat split|].
  apply orb_false_iff in Em. destruct Em as [Es Ec].
  destruct Hmiss as [H|[H|(sid & cid & -> & -> & Hnone)]]; try congruence.
  destruct Hnone as [-> | ->]; [repeat split|].
  destruct (getCardDetails sid cid); repeat split.
Qed.

(** C10.  The toggle negates the owned cell and touches no other cell,
    whether or not a user is logged in; its only effect besides is a
    toast, so nothing is asked of the backend; toggling again gives the
    state back. *)
Theorem toggle_owned_is_local (cardDetails : CardRecord) (s : State) :
  exec (handleToggleOwned name cardDetails) s = with_isOwned (negb (isOwned s)) s
  /\ existsb is_call (events (handleToggleOwned name cardDetails) s) = false
  /\ length (events (handleToggleOwned name cardDetails) s) = 1%nat
  /\ completion (handleToggleOwned name cardDetails) s = Normal tt
  /\ exec (handleToggleOwned name cardDetails)
          (exec (handleToggleOwned name cardDetails) s) = s.
Proof.
  unfold exec, events, completion, run, handleToggleOwned, setIsOwned, toast,
    bind, gets, modify, emit.
  destruct s as [l m u o]. destruct o; cbn; auto.
Qed.
End Catalog.

Lemma missing_card_render_witness :
  CardDetails Scenario.getCardDetails Scenario.getSetDetails
              (Some "base1") (Some "base1-1") (initial snd)
  = (Page ("Alakazam", false) "Base" (initial snd ("Alakazam", false)), true)
  /\ mount snd Scenario.getCardDetails Scenario.getSetDetails
           (Some "base1") (Some "base1-4")
     = Normal (Div "Card not found")
  /\ rerender Scenario.getCardDetails Scenario.getSetDetails true
              (initial snd ("Alakazam", false)) (Some "base1") (Some "base1-4")
     = Thrown (mkError
         "Rendered fewer hooks than expected. This may be caused by an accidental early return statement.").
Proof.
  destruct (missing_card_render snd Scenario.getCardDetails Scenario.getSetDetails
              (Some "base1") (Some "base1-4") (initial snd ("Alakazam", false)))
    as (Hmount & _ & Hthrow).
  - right. right. exists "base1", "base1-4". repeat split. left. reflexivity.
  - split; [reflexivity|]. split; [exact Hmount | exact Hthrow].
Defined.
End CardDetailsSpec.

(** ** Further properties of the booster-pack page *)
Module BoosterGameProps.
Import BoosterGame.

(** Unfold a handler run, then split on every answer it inspects. *)
Ltac unfold_handlers :=
  unfold exec, events, completion, run, handleLogin, handleLogout,
    checkUser, onAuthStateChange, resetBooster, openBoosterPack,
    addToGameCollection, fetchGameCollectionCount, setIsLoggedIn, setUsername,
    setShowAuthModal, setIsLoading, setBoosterCards, setIsOpened,
    setGameCollectionCount, console_error, toast,
    try_finally, try_catch, bind, gets, modify, emit, await, throw, ret;
  cbn [fst snd].

Ltac case_answer t :=
  first [ match goal with H : t = _ |- _ => rewrite H end
        | destruct t as [[?|] [?|]|] eqn:? ];
  cbn.

Ltac split_answers :=
  cbn;
  repeat match goal with
    | |- context [select_cards ?be] => case_answer (select_cards be)
    | |- context [getUserGameCollection ?be ?u] =>
        case_answer (getUserGameCollection be u)
    | |- context [rpc_get_user_game_collection_safe ?be ?u] =>
        case_answer (rpc_get_user_game_collection_safe be u)
    | |- context [getGameCollectionCount ?be ?u] =>
        case_answer (getGameCollectionCount be u)
    | |- context [rpc_get_game_collection_count_safe ?be ?u] =>
        case_answer (rpc_get_game_collection_count_safe be u)
    | |- context [addCardToGameCollection ?be ?u ?c] =>
        case_answer (addCardToGameCollection be u c)
    | |- context [rpc_add_card_to_game_collection_safe ?be ?u ?c] =>
        case_answer (rpc_add_card_to_game_collection_safe be u c)
    end.

(** X1.  Whatever the backend answers, fetching the count completes
    normally, changes no cell but the count, notifies nothing, writes
    nothing and issues at most two calls. *)
Theorem fetch_count_frame (be : Backend) (userId : string) (s : State) :
  let s' := exec (fetchGameCollectionCount be userId) s in
  completion (fetchGameCollectionCount be userId) s = Normal tt
  /\ (exists n, s' = with_gameCollectionCount (fun _ => n) s)
  /\ existsb is_toast (events (fetchGameCollectionCount be userId) s) = false
  /\ existsb is_backend_write (events (fetchGameCollectionCount be userId) s) = false
  /\ (length (filter is_call (events (fetchGameCollectionCount be userId) s)) <= 2)%nat.
Proof.
  destruct s as [l m u c o ld n]. unfold_handlers.
  destruct (getGameCollectionCount be userId) as [d [e|]|]; cbn.
  - repeat split; try lia. exists n. reflexivity.
  - repeat split; try lia. exists (or_zero d). reflexivity.
  - destruct (rpc_get_game_collection_count_safe be userId) as [rd [re|]|]; cbn;
      try (repeat split; try lia; exists n; reflexivity).
    destruct rd as [k|]; cbn; repeat split; try lia;
      [exists k | exists n]; reflexivity.
Qed.

(** X2.  The count is asked of the primary query first; the remote
    procedure is called exactly when that query rejected.  A primary query
    that resolved with an error object ends the handler without fallback. *)
Theorem fetch_count_fallback_iff_rejected
    (be : Backend) (userId : string) (s : State) :
  hd_error (events (fetchGameCollectionCount be userId) s)
    = Some (Call (GetGameCollectionCount userId))
  /\ (In (Call (RpcGetGameCollectionCountSafe userId))
         (events (fetchGameCollectionCount be userId) s)
      <-> exists reason, getGameCollectionCount be userId = Rejected reason).
Proof.
  unfold_handlers.
  destruct (getGameCollectionCount be userId) as [d [e|]|]; cbn.
  - split; [reflexivity|]. split.
    + intros [H|[H|[]]]; discriminate.
    + intros [r H]. discriminate.
  - split; [reflexivity|]. split.
    + intros [H|[]]; discriminate.
    + intros [r H]. discriminate.
  - split.
    + destruct (rpc_get_game_collection_count_safe be userId) as [rd [re|]|];
        cbn; [| destruct rd |]; reflexivity.
    + split; [intros _; eexists; reflexivity|]. intros _.
      destruct (rpc_get_game_collection_count_safe be userId) as [rd [re|]|];
        cbn; [| destruct rd |]; cbn; auto.
Qed.

(** X3.  A count reported by the primary query is displayed, a missing one
    as 0.  After a rejected primary query the count reported by the remote
    procedure is displayed, but a missing one leaves the displayed count as
    it was. *)
Theorem fetch_count_values (be : Backend) (userId : string) (s : State) :
  (forall count, getGameCollectionCount be userId = Resolved count None ->
     gameCollectionCount (exec (fetchGameCollectionCount be userId) s)
     = match count with Some n => n | None => 0%Z end)
  /\ (forall reason data,
        getGameCollectionCount be userId = Rejected reason ->
        rpc_get_game_collection_count_safe be userId = Resolved data None ->
        gameCollectionCount (exec (fetchGameCollectionCount be userId) s)
        = match data with Some n => n | None => gameCollectionCount s end).
Proof.
  split.
  - intros count H. unfold_handlers. rewrite H. destruct count; reflexivity.
  - intros reason data H1 H2. unfold_handlers. rewrite H1. cbn. rewrite H2.
    destruct data; reflexivity.
Qed.

Lemma fetch_count_values_witness :
  gameCollectionCount
    (exec (fetchGameCollectionCount Scenario.healthy "u1") initial) = 2%Z
  /\ gameCollectionCount
       (exec (fetchGameCollectionCount Scenario.primary_down "u1") initial) = 2%Z.
Proof.
  split.
  - apply (proj1 (fetch_count_values Scenario.healthy "u1" initial) (Some 2%Z)).
    reflexivity.
  - apply (proj2 (fetch_count_values Scenario.primary_down "u1" initial)
             Scenario.down (Some 2%Z)); reflexivity.
Defined.

(** X4.  Whatever the backend answers, opening a pack completes normally
    and leaves the login, the user name and the count as they were; for a
    logged-in user it ends with loading off and the prompt untouched.  It
    writes nothing and issues at most three calls, and what it asks about a
    user it asks about the user of the page. *)
Theorem open_frame (be : Backend) (s : State) :
  let s' := exec (openBoosterPack be) s in
  let evs := events (openBoosterPack be) s in
  completion (openBoosterPack be) s = Normal tt
  /\ isLoggedIn s' = isLoggedIn s
  /\ username s' = username s
  /\ gameCollectionCount s' = gameCollectionCount s
  /\ isLoading s' = (if isLoggedIn s then false else isLoading s)
  /\ showAuthModal s' = (if isLoggedIn s then showAuthModal s else true)
  /\ existsb is_backend_write evs = false
  /\ (length (filter is_call evs) <= 3)%nat
  /\ Forall (fun e => e = Call (GetUserGameCollection (username s))
                      \/ e = Call (RpcGetUserGameCollectionSafe (username s))
                      \/ e = Call SelectCards)
            (filter is_call evs).
Proof.
  destruct s as [l m u c o ld n]. unfold_handlers. destruct l; cbn.
  2: { repeat split; try lia. constructor. }
  destruct (select_cards be) as [[cards|] [e|]|]; cbn;
    try (repeat split; try lia; repeat (apply Forall_cons; [auto|]);
         apply Forall_nil).
  destruct (getUserGameCollection be u) as [gd ge|]; cbn;
    try (repeat split; try lia; repeat (apply Forall_cons; [auto|]);
         apply Forall_nil).
  destruct (collection_unavailable gd ge); cbn;
    try (repeat split; try lia; repeat (apply Forall_cons; [auto|]);
         apply Forall_nil).
  destruct (rpc_get_user_game_collection_safe be u) as [rd [re|]|]; cbn;
    repeat split; try lia; repeat (apply Forall_cons; [auto|]);
    apply Forall_nil.
Qed.

(** X5.  When the catalog query fails (it rejects, resolves with an error
    or resolves without data), a logged-in user is notified of the failure,
    the cards and the opened flag stay as they were, loading ends, and the
    ownership of no card is asked. *)
Theorem open_catalog_failure (be : Backend) (s : State) :
  isLoggedIn s = true ->
  match select_cards be with
  | Resolved (Some _) None => False
  | _ => True
  end ->
  exec (openBoosterPack be) s = with_isLoading false s
  /\ filter is_call (events (openBoosterPack be) s) = [Call SelectCards]
  /\ filter is_toast (events (openBoosterPack be) s)
     = [Toast ToastError "Failed to open booster pack"].
Proof.
  intros Hin Hfail. destruct s as [l m u c o ld n]. cbn in Hin. subst l.
  unfold_handlers.
  destruct (select_cards be) as [[cards|] [e|]|]; cbn; try contradiction;
    repeat split.
Qed.

Lemma open_catalog_failure_witness :
  let be := {| select_cards := Resolved None None;
               getUserGameCollection := getUserGameCollection Scenario.healthy;
               rpc_get_user_game_collection_safe :=
                 rpc_get_user_game_collection_safe Scenario.healthy;
               getGameCollectionCount := getGameCollectionCount Scenario.healthy;
               rpc_get_game_collection_count_safe :=
                 rpc_get_game_collection_count_safe Scenario.healthy;
               addCardToGameCollection := addCardToGameCollection Scenario.healthy;
               rpc_add_card_to_game_collection_safe :=
                 rpc_add_card_to_game_collection_safe Scenario.healthy |} in
  exec (openBoosterPack be) Scenario.pack_opened = Scenario.pack_opened
  /\ filter is_call (events (openBoosterPack be) Scenario.pack_opened)
     = [Call SelectCards].
Proof.
  intros be.
  destruct (open_catalog_failure be Scenario.pack_opened eq_refl I) as (Hs & Hc & _).
  split; [exact Hs | exact Hc].
Defined.

(** X6.  With the catalog answered, the remote procedure for the user's
    collection is called exactly when the primary query resolved with an
    error or without data; a primary query that rejects is not followed by
    the remote procedure. *)
Theorem open_fallback_iff_unavailable
    (be : Backend) (s : State) (randomCards : list Card.t) :
  isLoggedIn s = true ->
  select_cards be = Resolved (Some randomCards) None ->
  (In (Call (RpcGetUserGameCollectionSafe (username s)))
      (events (openBoosterPack be) s)
   <-> exists gameCollection collectionError,
         getUserGameCollection be (username s)
           = Resolved gameCollection collectionError
         /\ collection_unavailable gameCollection collectionError = true).
Proof.
  intros Hin Hsel. destruct s as [l m u c o ld n]. cbn in Hin. subst l.
  unfold_handlers. cbn. rewrite Hsel. cbn.
  destruct (getUserGameCollection be u) as [gd ge|]; cbn.
  - destruct (collection_unavailable gd ge) eqn:Hun; cbn.
    + split; [intros _; exists gd, ge; auto|]. intros _.
      destruct (rpc_get_user_game_collection_safe be u) as [rd [re|]|]; cbn; auto.
    + split.
      * intros [H|[H|[]]]; discriminate.
      * intros (d & e & Heq & Hd). injection Heq as <- <-. congruence.
  - split.
    + intros [H|[H|[H|[H|[]]]]]; discriminate.
    + intros (d & e & Heq & _). discriminate.
Qed.

Lemma open_fallback_iff_unavailable_witness :
  In (Call (RpcGetUserGameCollectionSafe "u1"))
     (events (openBoosterPack Scenario.primary_down) Scenario.logged_in)
  /\ ~ In (Call (RpcGetUserGameCollectionSafe "u1"))
          (events (openBoosterPack Scenario.healthy) Scenario.logged_in).
Proof.
  split.
  - apply (open_fallback_iff_unavailable Scenario.primary_down Scenario.logged_in
             [Scenario.c1; Scenario.c2; Scenario.c3] eq_refl eq_refl).
    exists None, (Some Scenario.down). split; reflexivity.
  - intros H.
    apply (open_fallback_iff_unavailable Scenario.healthy Scenario.logged_in
             [Scenario.c1; Scenario.c2; Scenario.c3] eq_refl eq_refl) in H.
    destruct H as (d & e & Heq & Hun). injection Heq as <- <-. discriminate.
Defined.

(** X7.  When the primary ownership query is unavailable and the remote
    procedure resolves without an error and without data, the pack is
    presented with every card not owned, and nothing is notified. *)
Theorem open_rpc_without_data
    (be : Backend) (s : State) (randomCards : list Card.t)
    (gameCollection : option (list GameCollectionRow.t))
    (collectionError : option Error) :
  isLoggedIn s = true ->
  select_cards be = Resolved (Some randomCards) None ->
  getUserGameCollection be (username s) = Resolved gameCollection collectionError ->
  collection_unavailable gameCollection collectionError = true ->
  rpc_get_user_game_collection_safe be (username s) = Resolved None None ->
  let s' := exec (openBoosterPack be) s in
  boosterCards s'
    = map (fun card => CardWithCollectionStatus.spread card false) randomCards
  /\ isOpened s' = true
  /\ existsb is_toast (events (openBoosterPack be) s) = false.
Proof.
  intros Hin Hsel Hcol Hun Hrpc. destruct s as [l m u c o ld n].
  cbn in Hin, Hcol, Hrpc. subst l. unfold_handlers. cbn.
  rewrite Hsel. cbn. rewrite Hcol. cbn. rewrite Hun. cbn. rewrite Hrpc. cbn.
  repeat split.
Qed.

Lemma open_rpc_without_data_witness :
  let be := {| select_cards := select_cards Scenario.healthy;
               getUserGameCollection := fun _ => Resolved None None;
               rpc_get_user_game_collection_safe := fun _ => Resolved None None;
               getGameCollectionCount := getGameCollectionCount Scenario.healthy;
               rpc_get_game_collection_count_safe :=
                 rpc_get_game_collection_count_safe Scenario.healthy;
               addCardToGameCollection := addCardToGameCollection Scenario.healthy;
               rpc_add_card_to_game_collection_safe :=
                 rpc_add_card_to_game_collection_safe Scenario.healthy |} in
  map CardWithCollectionStatus.owned
      (boosterCards (exec (openBoosterPack be) Scenario.logged_in))
  = [false; false; false].
Proof.
  intros be.
  rewrite (proj1 (open_rpc_without_data be Scenario.logged_in
                    [Scenario.c1; Scenario.c2; Scenario.c3] None None
                    eq_refl eq_refl eq_refl eq_refl eq_refl)).
  reflexivity.
Defined.

(** X8.  Opening a pack twice against the same answers leaves the page as
    opening it once does, for every state and every answer. *)
Theorem open_idempotent (be : Backend) (s : State) :
  exec (openBoosterPack be) (exec (openBoosterPack be) s)
  = exec (openBoosterPack be) s.
Proof.
  destruct s as [l m u c o ld n]. unfold_handlers. destruct l; cbn; [|reflexivity].
  destruct (select_cards be) as [[cards|] [e|]|] eqn:Hsel; cbn;
    rewrite ?Hsel; cbn; try reflexivity.
  destruct (getUserGameCollection be u) as [gd ge|] eqn:Hcol; cbn;
    rewrite ?Hsel; cbn; rewrite ?Hcol; cbn; try reflexivity.
  destruct (collection_unavailable gd ge) eqn:Hun; cbn;
    rewrite ?Hsel; cbn; rewrite ?Hcol; cbn; rewrite ?Hun; cbn; try reflexivity.
  destruct (rpc_get_user_game_collection_safe be u) as [rd [re|]|] eqn:Hrpc; cbn;
    rewrite ?Hsel; cbn; rewrite ?Hcol; cbn; rewrite ?Hun; cbn; rewrite ?Hrpc; cbn;
    reflexivity.
Qed.

(** X9.  "Open another": once a pack was presented, closing it and opening
    a pack against the same answers gives the page the first opening gave. *)
Theorem open_another_same_pack (be : Backend) (s : State) (randomCards : list Card.t) :
  isLoggedIn s = true ->
  select_cards be = Resolved (Some randomCards) None ->
  lookup_answered be (username s) = true ->
  isOpened (exec (openBoosterPack be) s) = true
  /\ boosterCards (exec resetBooster (exec (openBoosterPack be) s)) = []
  /\ exec (openBoosterPack be) (exec resetBooster (exec (openBoosterPack be) s))
     = exec (openBoosterPack be) s.
Proof.
  intros Hin Hsel Hans. destruct s as [l m u c o ld n]. cbn in Hin, Hans. subst l.
  unfold lookup_answered in Hans. unfold_handlers. cbn. rewrite Hsel. cbn.
  destruct (getUserGameCollection be u) as [gd ge|] eqn:Hcol; [|discriminate]. cbn.
  destruct (collection_unavailable gd ge) eqn:Hun; cbn.
  - destruct (rpc_get_user_game_collection_safe be u) as [rd [re|]|] eqn:Hrpc;
      [| |discriminate]; cbn; rewrite ?Hsel; cbn; rewrite ?Hcol; cbn;
      rewrite ?Hun; cbn; rewrite ?Hrpc; cbn; repeat split.
  - rewrite ?Hsel; cbn; rewrite ?Hcol; cbn; rewrite ?Hun; cbn. repeat split.
Qed.

Lemma open_another_same_pack_witness :
  exec (openBoosterPack Scenario.healthy)
       (exec resetBooster (exec (openBoosterPack Scenario.healthy) Scenario.logged_in))
  = Scenario.pack_opened.
Proof.
  apply (open_another_same_pack Scenario.healthy Scenario.logged_in
           [Scenario.c1; Scenario.c2; Scenario.c3]); reflexivity.
Defined.

(** X10.  Logged out, adding a card only raises the authentication prompt:
    nothing is asked of the backend and nothing is notified. *)
Theorem add_logged_out (be : Backend) (cardId : string) (s : State) :
  isLoggedIn s = false ->
  run (addToGameCollection be cardId) s
  = (Normal tt, (with_showAuthModal true s, [])).
Proof.
  intros Hout. unfold_handlers. rewrite Hout. reflexivity.
Qed.

Lemma add_logged_out_witness :
  run (addToGameCollection Scenario.healthy "c1") initial
  = (Normal tt, (with_showAuthModal true initial, [])).
Proof.
  apply (add_logged_out Scenario.healthy "c1" initial). reflexivity.
Defined.

Lemma owned_kept_refl (cards : list CardWithCollectionStatus.t) :
  Forall2 (fun before after =>
             CardWithCollectionStatus.owned before = true ->
             CardWithCollectionStatus.owned after = true) cards cards.
Proof.
  induction cards; constructor; auto.
Qed.

Lemma owned_kept_mark (cardId : string) (cards : list CardWithCollectionStatus.t) :
  Forall2 (fun before after =>
             CardWithCollectionStatus.owned before = true ->
             CardWithCollectionStatus.owned after = true)
          cards (map (mark_owned cardId) cards).
Proof.
  induction cards as [|card cards IH]; simpl; constructor; [|exact IH].
  unfold mark_owned.
  destruct (String.eqb (CardWithCollectionStatus.id card) cardId); auto.
Qed.

Lemma card_of_map_mark (cardId : string) (cards : list CardWithCollectionStatus.t) :
  map CardWithCollectionStatus.card_of (map (mark_owned cardId) cards)
  = map CardWithCollectionStatus.card_of cards.
Proof.
  rewrite map_map. apply map_ext. intros card. unfold mark_owned.
  destruct (String.eqb (CardWithCollectionStatus.id card) cardId); reflexivity.
Qed.

(** X11.  Whatever the backend answers, adding a card completes normally
    and leaves the login, the user name, the opened flag and the loading
    flag as they were.  The displayed cards stay the same cards in the same
    order, no card that was owned stops being owned, the count stays or
    becomes [prev + 1] as a JavaScript number, nothing is read from the
    backend and at most two calls are issued. *)
Theorem add_frame (be : Backend) (cardId : string) (s : State) :
  let s' := exec (addToGameCollection be cardId) s in
  let evs := events (addToGameCollection be cardId) s in
  completion (addToGameCollection be cardId) s = Normal tt
  /\ isLoggedIn s' = isLoggedIn s
  /\ username s' = username s
  /\ isOpened s' = isOpened s
  /\ isLoading s' = isLoading s
  /\ map CardWithCollectionStatus.card_of (boosterCards s')
     = map CardWithCollectionStatus.card_of (boosterCards s)
  /\ Forall2 (fun before after =>
                CardWithCollectionStatus.owned before = true ->
                CardWithCollectionStatus.owned after = true)
             (boosterCards s) (boosterCards s')
  /\ (gameCollectionCount s' = gameCollectionCount s
      \/ gameCollectionCount s' = js_add_one (gameCollectionCount s))
  /\ existsb is_backend_read evs = false
  /\ (length (filter is_call evs) <= 2)%nat.
Proof.
  pose proof owned_kept_refl as Hrefl. pose proof owned_kept_mark as Hmark.
  pose proof card_of_map_mark as Hcard.
  destruct s as [l m u c o ld n]. unfold_handlers. destruct l; cbn.
  2: { repeat split; auto. }
  destruct (addCardToGameCollection be u cardId) as [d [e|]|]; cbn;
    try (repeat split; auto; fail).
  destruct (rpc_add_card_to_game_collection_safe be u cardId) as [rd [re|]|]; cbn;
    repeat split; auto.
Qed.

(** X12.  For a logged-in user the insert is tried first, and the remote
    procedure is called exactly when the insert resolved with an error
    object; an insert that rejects is not followed by the remote
    procedure. *)
Theorem add_fallback_iff_error (be : Backend) (cardId : string) (s : State) :
  isLoggedIn s = true ->
  hd_error (events (addToGameCollection be cardId) s)
    = Some (Call (AddCardToGameCollection (username s) cardId))
  /\ (In (Call (RpcAddCardToGameCollectionSafe (username s) cardId))
         (events (addToGameCollection be cardId) s)
      <-> exists data error,
            addCardToGameCollection be (username s) cardId
            = Resolved data (Some error)).
Proof.
  intros Hin. destruct s as [l m u c o ld n]. cbn in Hin. subst l.
  unfold_handlers. cbn.
  destruct (addCardToGameCollection be u cardId) as [d [e|]|]; cbn.
  - split.
    + destruct (rpc_add_card_to_game_collection_safe be u cardId) as [rd [re|]|];
        reflexivity.
    + split; [intros _; exists d, e; reflexivity|]. intros _.
      destruct (rpc_add_card_to_game_collection_safe be u cardId) as [rd [re|]|];
        cbn; auto.
  - split; [reflexivity|]. split.
    + intros [H|[H|[]]]; discriminate.
    + intros (d' & e' & H). discriminate.
  - split; [reflexivity|]. split.
    + intros [H|[H|[H|[]]]]; discriminate.
    + intros (d' & e' & H). discriminate.
Qed.

Lemma add_fallback_iff_error_witness :
  In (Call (RpcAddCardToGameCollectionSafe "u1" "c2"))
     (events (addToGameCollection Scenario.primary_down "c2") Scenario.pack_opened)
  /\ hd_error (events (addToGameCollection Scenario.healthy "c2") Scenario.pack_opened)
     = Some (Call (AddCardToGameCollection "u1" "c2")).
Proof.
  split.
  - apply (add_fallback_iff_error Scenario.primary_down "c2" Scenario.pack_opened
             eq_refl).
    exists None, Scenario.duplicate. reflexivity.
  - apply (add_fallback_iff_error Scenario.healthy "c2" Scenario.pack_opened
             eq_refl).
Defined.

(** X13.  A confirmed add of a card id that no displayed card has leaves
    the displayed cards as they are and still raises the count, by one
    while the count is below [2 ^ 53]. *)
Theorem add_undisplayed_card (be : Backend) (cardId : string) (s : State) :
  isLoggedIn s = true ->
  add_confirmed be (username s) cardId = true ->
  (forall card, In card (boosterCards s) ->
                CardWithCollectionStatus.id card <> cardId) ->
  (- 2 ^ 53 <= gameCollectionCount s < 2 ^ 53)%Z ->
  boosterCards (exec (addToGameCollection be cardId) s) = boosterCards s
  /\ gameCollectionCount (exec (addToGameCollection be cardId) s)
     = (gameCollectionCount s + 1)%Z.
Proof.
  intros Hin Hok Hnone Hsafe.
  rewrite (BoosterGameSpec.exec_add_confirmed be s cardId Hin Hok). cbn.
  split; [|apply js_add_one_exact; exact Hsafe].
  rewrite <- (map_id (boosterCards s)) at 2. apply map_ext_in.
  intros card Hcard. unfold mark_owned.
  apply Hnone in Hcard. apply String.eqb_neq in Hcard. rewrite Hcard. reflexivity.
Qed.

Lemma add_undisplayed_card_witness :
  boosterCards (exec (addToGameCollection Scenario.healthy "c9") Scenario.pack_opened)
  = boosterCards Scenario.pack_opened
  /\ gameCollectionCount
       (exec (addToGameCollection Scenario.healthy "c9") Scenario.pack_opened)
     = 3%Z.
Proof.
  apply (add_undisplayed_card Scenario.healthy "c9" Scenario.pack_opened);
    try reflexivity.
  - intros card [<-|[<-|[<-|[]]]]; discriminate.
  - cbn. lia.
Defined.

Lemma mark_owned_closed (cardId : string) (card : CardWithCollectionStatus.t) :
  mark_owned cardId card
  = CardWithCollectionStatus.set_owned card
      (CardWithCollectionStatus.owned card
       || String.eqb (CardWithCollectionStatus.id card) cardId).
Proof.
  unfold mark_owned. destruct card as [a h i im nm nu r si su ty ow]. cbn.
  destruct (String.eqb i cardId).
  - rewrite orb_true_r. reflexivity.
  - rewrite orb_false_r. reflexivity.
Qed.

(** X14.  After a series of confirmed adds by a logged-in user, run one
    after the other, a displayed card is owned exactly when it was owned
    before or its id is one of the added ids, the cards being otherwise
    unchanged.  While the count stays within [2 ^ 53] it has gone up by the
    number of adds, whether or not they named a displayed or an already
    owned card. *)
Theorem add_series (script : list (Backend * string)) (s : State) :
  isLoggedIn s = true ->
  Forall (fun step => add_confirmed (fst step) (username s) (snd step) = true)
         script ->
  (- 2 ^ 53 <= gameCollectionCount s)%Z ->
  (gameCollectionCount s + Z.of_nat (length script) <= 2 ^ 53)%Z ->
  let s' := fold_left (fun page step =>
                         exec (addToGameCollection (fst step) (snd step)) page)
                      script s in
  boosterCards s'
    = map (fun card =>
             CardWithCollectionStatus.set_owned card
               (CardWithCollectionStatus.owned card
                || includes (map snd script) (CardWithCollectionStatus.id card)))
          (boosterCards s)
  /\ gameCollectionCount s'
     = (gameCollectionCount s + Z.of_nat (length script))%Z.
Proof.
  revert s. induction script as [|[be cardId] script IH]; intros s Hin Hall Hlo Hhi.
  - cbn. split; [|lia].
    rewrite <- (map_id (boosterCards s)) at 1. apply map_ext.
    intros card. destruct card. cbn. rewrite orb_false_r. reflexivity.
  - inversion Hall as [|? ? Hok Hrest]; subst. cbn in Hok.
    cbn [fold_left fst snd].
    rewrite (BoosterGameSpec.exec_add_confirmed be s cardId Hin Hok).
    set (s1 := with_gameCollectionCount _ _).
    assert (Hcount1 : gameCollectionCount s1 = (gameCollectionCount s + 1)%Z).
    { subst s1. cbn. apply js_add_one_exact. cbn [length] in Hhi. lia. }
    destruct (IH s1) as [Hcards Hcount];
      [exact Hin | exact Hrest | rewrite Hcount1; lia
       | rewrite Hcount1; cbn [length] in Hhi; lia |].
    cbv zeta in Hcards, Hcount. rewrite Hcards, Hcount, Hcount1.
    split; [|cbn [length]; lia].
    subst s1. cbn. rewrite map_map. apply map_ext. intros card.
    rewrite mark_owned_closed. destruct card as [a h i im nm nu r si su ty ow].
    cbn. rewrite orb_assoc. reflexivity.
Qed.

Lemma add_series_witness :
  let s' := fold_left (fun page step =>
                         exec (addToGameCollection (fst step) (snd step)) page)
                      [(Scenario.healthy, "c2"); (Scenario.primary_down, "c2")]
                      Scenario.pack_opened in
  map CardWithCollectionStatus.owned (boosterCards s') = [true; true; true]
  /\ gameCollectionCount s' = 4%Z.
Proof.
  destruct (add_series [(Scenario.healthy, "c2"); (Scenario.primary_down, "c2")]
              Scenario.pack_opened eq_refl) as [Hcards Hcount].
  - repeat constructor.
  - cbn. lia.
  - cbn. lia.
  - cbv zeta in Hcards, Hcount. cbn [map fst snd] in Hcards, Hcount.
    split; [rewrite Hcards; reflexivity | rewrite Hcount; reflexivity].
Defined.

(** X15.  Logging in through the dialog completes normally, marks the page
    logged in under the given name and closes the dialog, leaving the pack
    as it was.  The count is then fetched for the given name, not for the
    name the page had, and becomes what fetching it for that name gives. *)
Theorem login_fetches_count (be : Backend) (user : string) (s : State) :
  let s' := exec (handleLogin be user) s in
  completion (handleLogin be user) s = Normal tt
  /\ isLoggedIn s' = true
  /\ username s' = user
  /\ showAuthModal s' = false
  /\ boosterCards s' = boosterCards s
  /\ isOpened s' = isOpened s
  /\ events (handleLogin be user) s = events (fetchGameCollectionCount be user) s
  /\ gameCollectionCount s'
     = gameCollectionCount (exec (fetchGameCollectionCount be user) s)
  /\ hd_error (events (handleLogin be user) s)
     = Some (Call (GetGameCollectionCount user)).
Proof.
  destruct s as [l m u c o ld n]. unfold_handlers.
  destruct (getGameCollectionCount be user) as [d [e|]|]; cbn;
    try (repeat split; fail).
  destruct (rpc_get_game_collection_count_safe be user) as [rd [re|]|]; cbn;
    try (repeat split; fail).
  destruct rd; cbn; repeat split.
Qed.

(** X16.  The three places that react to a session agree.  A sign-out
    reported by the listener does what the logout button does; a session
    reported by the listener does what the session found on mount does;
    and logging in through the dialog differs from both only in closing
    the dialog.  Finding no session on mount changes nothing: it does not
    log the page out. *)
Theorem session_paths_agree
    (be : Backend) (user : string) (error : option Error) (s : State) :
  run (onAuthStateChange be None) s = run handleLogout s
  /\ run (onAuthStateChange be (Some (Session.mk user))) s
     = run (checkUser be (Resolved (Some (Session.mk user)) error)) s
  /\ exec (handleLogin be user) s
     = with_showAuthModal false
         (exec (onAuthStateChange be (Some (Session.mk user))) s)
  /\ events (handleLogin be user) s
     = events (onAuthStateChange be (Some (Session.mk user))) s
  /\ run (checkUser be (Resolved None error)) s = (Normal tt, (s, [])).
Proof.
  destruct s as [l m u c o ld n].
  split; [reflexivity|]. split; [reflexivity|]. split; [|split; [|reflexivity]].
  - unfold_handlers. cbn.
    destruct (getGameCollectionCount be user) as [d [e|]|]; cbn; try reflexivity.
    destruct (rpc_get_game_collection_count_safe be user) as [rd [re|]|]; cbn;
      try reflexivity.
    destruct rd; reflexivity.
  - unfold_handlers. cbn.
    destruct (getGameCollectionCount be user) as [d [e|]|]; cbn; try reflexivity.
    destruct (rpc_get_game_collection_count_safe be user) as [rd [re|]|]; cbn;
      try reflexivity.
    destruct rd; reflexivity.
Qed.

(** X17.  After a logout no click on the page reaches the backend: opening
    a pack and adding a card only raise the authentication prompt.  The
    count line is gone, yet a pack that was open stays displayed with its
    cards and their owned flags. *)
Theorem logout_cuts_backend (be : Backend) (cardId : string) (s : State) :
  let s' := exec handleLogout s in
  events (openBoosterPack be) s' = []
  /\ events (addToGameCollection be cardId) s' = []
  /\ exec (openBoosterPack be) s' = with_showAuthModal true s'
  /\ exec (addToGameCollection be cardId) s' = with_showAuthModal true s'
  /\ collectionLine (render s') = None
  /\ main (render s')
     = (if isOpened s then BoosterPack (boosterCards s)
        else OpenButton (isLoading s) (isLoading s) true).
Proof.
  destruct s as [l m u c o ld n]. unfold_handlers. cbn.
  repeat split. destruct o; reflexivity.
Qed.

End BoosterGameProps.

(** ** Further properties of the card-details page *)
Module CardDetailsProps.
Import CardDetails.

Section Catalog.
Context {CardRecord SetRecord : Type}.
Variable owned : CardRecord -> bool.
Variable name : CardRecord -> string.
Variable getCardDetails : string -> string -> option CardRecord.
Variable getSetDetails : string -> option SetRecord.

(** X19.  On its first render the page is built exactly when both route
    parameters are present and not empty and the catalog has both the card
    and its set; it then shows these two records and the initial cells,
    the owned cell being the owned flag of the card; in every other case
    the first render gives a bare message.  A later render returns
    normally exactly when the component function reaches the hook of line
    38 as the render before did, and React throws otherwise. *)
Theorem page_iff_found
    (setId cardId : option string)
    (cardDetails : CardRecord) (setDetails : SetRecord) (s : State) :
  (mount owned getCardDetails getSetDetails setId cardId
   = Normal (Page cardDetails setDetails s)
   <-> exists sid cid,
         setId = Some sid /\ cardId = Some cid
         /\ sid <> "" /\ cid <> ""
         /\ getCardDetails sid cid = Some cardDetails
         /\ getSetDetails sid = Some setDetails
         /\ s = initial owned cardDetails)
  /\ ((exists text,
         mount owned getCardDetails getSetDetails setId cardId = Normal (Div text))
      \/ exists c st,
           mount owned getCardDetails getSetDetails setId cardId
           = Normal (Page c st (initial owned c)))
  /\ (forall before view,
        rerender getCardDetails getSetDetails before s setId cardId = Normal view
        <-> CardDetails getCardDetails getSetDetails setId cardId (fun _ => s)
            = (view, before))
  /\ (forall before,
        (exists view,
           rerender getCardDetails getSetDetails before s setId cardId
           = Normal view)
        \/ exists e,
             rerender getCardDetails getSetDetails before s setId cardId
             = Thrown e).
Proof.
  unfold mount, rerender, render, CardDetails. split; [|split; [|split]].
  - split.
    + destruct setId as [[|a sid]|], cardId as [[|b cid]|]; cbn; try discriminate.
      destruct (getCardDetails (String a sid) (String b cid)) as [c|] eqn:Hc;
        [|discriminate].
      destruct (getSetDetails (String a sid)) as [st|] eqn:Hs; [|discriminate].
      intros H. injection H as <- <- <-.
      exists (String a sid), (String b cid). repeat split; auto; discriminate.
    + intros (sid & cid & -> & -> & Hsid & Hcid & Hc & Hs & ->).
      destruct sid as [|a sid]; [contradiction|].
      destruct cid as [|b cid]; [contradiction|].
      cbn. rewrite Hc, Hs. reflexivity.
  - destruct setId as [[|a sid]|], cardId as [[|b cid]|]; cbn;
      try (left; eexists; reflexivity).
    destruct (getCardDetails (String a sid) (String b cid)) as [c|];
      [|left; eexists; reflexivity].
    destruct (getSetDetails (String a sid)) as [st|];
      [|left; eexists; reflexivity].
    right. exists c, st. reflexivity.
  - intros before view.
    destruct (if missing setId || missing cardId then _ else _) as [element reached].
    destruct before, reached; cbn; split; intros H;
      try discriminate; injection H as <-; try reflexivity; discriminate.
  - intros before.
    destruct (if missing setId || missing cardId then _ else _) as [element reached].
    destruct before, reached; cbn;
      first [left; eexists; reflexivity | right; eexists; reflexivity].
Qed.

(** X20.  The owned flag of the page is not tied to the login: logging in
    and logging out leave it as it is and emit nothing, and toggling it
    before or after a login or a logout gives the same page. *)
Theorem owned_flag_ignores_login
    (cardDetails : CardRecord) (user : string) (s : State) :
  isOwned (exec (handleLogin user) s) = isOwned s
  /\ isOwned (exec handleLogout s) = isOwned s
  /\ events (handleLogin user) s = []
  /\ events handleLogout s = []
  /\ exec (handleToggleOwned name cardDetails) (exec (handleLogin user) s)
     = exec (handleLogin user) (exec (handleToggleOwned name cardDetails) s)
  /\ exec (handleToggleOwned name cardDetails) (exec handleLogout s)
     = exec handleLogout (exec (handleToggleOwned name cardDetails) s).
Proof.
  unfold exec, events, run, handleLogin, handleLogout, handleToggleOwned,
    setIsLoggedIn, setUsername, setShowAuthModal, setIsOwned, toast,
    bind, gets, modify, emit.
  destruct s as [l m u o]. destruct o; cbn; repeat split.
Qed.
End Catalog.
End CardDetailsProps.
